(** * EVA-Modul: thermal load and ventilation requirement of a room

    Shallow embedding of [calculate_thermal_load] (Inifltration.py) and the
    properties of its specification.

    Conventions of the model.
    - Python numbers (ints and binary64 floats) are idealised as exact
      rationals [Q]; numeric equalities are stated with [==].  Rounding is
      outside the model.
    - NaN and the infinities are not rationals.  Where the script meets one
      (an empty cell, which [pandas] presents as NaN; a psychrometric function
      that answers one; a zero divisor) the run is recorded as having left
      the rationals at that line, and nothing is said about what follows.
      In particular a zero divisor makes Python floats raise
      [ZeroDivisionError] and makes [numpy] floats (anything computed from a
      [pandas] cell or by a [numpy] psychro) go on with an infinity or NaN;
      the runtime types of the operands are not modelled, so the model takes
      no side.
    - The script is one straight-line function.  A run is the list of its
      observable events (every assignment to a local name and every [print])
      together with its outcome: completion, the exception that killed it
      and the source line that raised it, or the line at which it left the
      rationals.
    - [pandas] and the [psychro] module are not part of the script.  The
      file system with the spreadsheet is an argument of the run, and the
      two psychrometric functions are section variables. *)

From Stdlib Require Import QArith Qabs Lqa.
From stdpp Require Import gmap strings list.

Local Open Scope Q_scope.
Local Open Scope string_scope.

(** ** Exceptions and fallible expressions *)

(** The exceptions of the model.  [EngineError name] is an exception of
    class [name] raised inside the spreadsheet engine while it parses a
    file (xlrd's [XLRDError], [zipfile.BadZipFile], a [TypeError] on an
    empty file, ...). *)
Inductive exn : Type :=
  | FileNotFoundError
  | KeyError
  | TypeError
  | ZeroDivisionError
  | ValueError
  | EngineError (name : string).

(** The result of evaluating an expression: a value, an exception, or
    [Outside] when the value is NaN or an infinity (or is decided by a zero
    divisor). *)
Inductive res (A : Type) : Type :=
  | Ok (a : A)
  | Raise (e : exn)
  | Outside.
Arguments Ok {A} a.
Arguments Raise {A} e.
Arguments Outside {A}.

#[global] Instance res_ret : MRet res := @Ok.
#[global] Instance res_bind : MBind res := λ A B f r,
  match r with
  | Ok a => f a
  | Raise e => Raise e
  | Outside => Outside
  end.

(** Python's true division.  A zero divisor raises [ZeroDivisionError] when
    both operands are Python floats and gives an infinity or NaN when one is
    a [numpy] float; either way the quotient is no rational. *)
Definition qdiv (x y : Q) : res Q :=
  if Qeq_bool y 0 then Outside else Ok (x / y).
Infix "//" := qdiv (at level 40, left associativity) : Q_scope.

(** Python's [a > b]. *)
Definition Qgtb (a b : Q) : bool := negb (Qle_bool a b).

(** ** The spreadsheet, as [pandas] presents it *)

(** A cell holds a number, a text, or nothing; [pandas] presents an empty
    cell as NaN. *)
Inductive cell : Type :=
  | CNum (q : Q)
  | CStr (s : string)
  | CBlank.

(** A data frame: column label to the cells of the column, row 0 first.
    A frame is rectangular: it has as many rows as its longest column, and
    a shorter column is blank below its last cell. *)
Record DataFrame : Type := Frame { columns : gmap string (list cell) }.

Definition height (df : DataFrame) : nat :=
  map_fold (λ _ cs h, Nat.max (length cs) h) 0%nat (columns df).

(** A file is a workbook the engine can read, or one on which the engine
    raises an exception of class [name]. *)
Inductive file : Type :=
  | Workbook (df : DataFrame)
  | Unreadable (name : string).

(** [pd.read_excel(path, engine=...)] *)
Definition read_excel (fs : gmap string file) (path engine : string)
  : res DataFrame :=
  match fs !! path with
  | None => Raise FileNotFoundError
  | Some (Unreadable name) => Raise (EngineError name)
  | Some (Workbook df) => Ok df
  end.

(** [df.at[row, col]]: [KeyError] when the frame has no such column or no
    such row. *)
Definition at_ (df : DataFrame) (row : nat) (col : string) : res cell :=
  match columns df !! col with
  | None => Raise KeyError
  | Some cs =>
      match cs !! row with
      | Some x => Ok x
      | None => if (row <? height df)%nat then Ok CBlank else Raise KeyError
      end
  end.

(** [cell / d]: a text cannot be divided, and NaN divided is NaN. *)
Definition cell_div (x : cell) (d : Q) : res Q :=
  match x with
  | CNum q => q // d
  | CStr _ => Raise TypeError
  | CBlank => Outside
  end.

(** ** Runs *)

Inductive value : Type :=
  | VNum (q : Q)
  | VFrame (df : DataFrame).

(** The pieces of an f-string: literal text and [{v:.Nf}] fields. *)
Inductive piece : Type :=
  | Lit (s : string)
  | Fixed (digits : nat) (v : Q).

Inductive event : Type :=
  | Assign (x : string) (v : value)
  | Print (ps : list piece).

Inductive outcome (A : Type) : Type :=
  | Done (a : A)
  | Fail (e : exn) (line : nat)
  | Escaped (line : nat).
Arguments Done {A} a.
Arguments Fail {A} e line.
Arguments Escaped {A} line.

Record run (A : Type) : Type := Run { trace : list event; result : outcome A }.
Arguments Run {A} trace result.
Arguments trace {A} r.
Arguments result {A} r.

#[global] Instance run_ret : MRet run := λ A a, Run [] (Done a).
#[global] Instance run_bind : MBind run := λ A B f r,
  match result r with
  | Done a => match f a with Run tr o => Run (trace r ++ tr) o end
  | Fail e ln => Run (trace r) (Fail e ln)
  | Escaped ln => Run (trace r) (Escaped ln)
  end.

Definition assign (x : string) (v : Q) : run Q :=
  Run [Assign x (VNum v)] (Done v).

Definition assign_at (ln : nat) (x : string) (e : res Q) : run Q :=
  match e with
  | Ok v => assign x v
  | Raise ex => Run [] (Fail ex ln)
  | Outside => Run [] (Escaped ln)
  end.

Definition assign_df_at (ln : nat) (x : string) (e : res DataFrame)
  : run DataFrame :=
  match e with
  | Ok df => Run [Assign x (VFrame df)] (Done df)
  | Raise ex => Run [] (Fail ex ln)
  | Outside => Run [] (Escaped ln)
  end.

Definition print (ps : list piece) : run unit := Run [Print ps] (Done tt).

Notation "x ::= e" := (assign x e) (at level 90, e at level 70).
Notation "x @ ln ::= e" := (assign_at ln x e)
  (at level 90, ln at level 0, e at level 70).
Notation "x @ ln ::=df e" := (assign_df_at ln x e)
  (at level 90, ln at level 0, e at level 70).

(** ** Reading a trace *)

(** The values assigned to [x], oldest first. *)
Definition assigned (x : string) (tr : list event) : list value :=
  omap (λ ev, match ev with
              | Assign y v => if String.eqb x y then Some v else None
              | Print _ => None
              end) tr.

(** The numbers assigned to [x], oldest first. *)
Definition nums (x : string) (tr : list event) : list Q :=
  omap (λ v, match v with VNum q => Some q | VFrame _ => None end)
       (assigned x tr).

(** The value [x] holds when the run ends. *)
Definition var (x : string) (tr : list event) : option Q := last (nums x tr).

(** What the run wrote to standard output, one entry per [print]. *)
Definition stdout (tr : list event) : list (list piece) :=
  omap (λ ev, match ev with
              | Print ps => Some ps
              | Assign _ _ => None
              end) tr.

(** The names assigned to, in order, one entry per assignment. *)
Definition writes (tr : list event) : list string :=
  omap (λ ev, match ev with
              | Assign x _ => Some x
              | Print _ => None
              end) tr.

(** The number in the last line the run printed. *)
Definition reported (tr : list event) : option Q :=
  match last (stdout tr) with
  | Some [_; Fixed _ v; _] => Some v
  | _ => None
  end.

Notation "tr ⊨ x ↦ v" := (var x tr = Some v)
  (at level 70, x at level 9, v at level 9, no associativity).

(** The names assigned to other than [x], one entry per assignment. *)
Definition writes_except (x : string) (tr : list event) : list string :=
  List.filter (λ y, negb (String.eqb x y)) (writes tr).

(** ** The script *)

Section Script.

(** [psychro.w(t, phi, Z)] and [psychro.v(t, w)]. *)
Variable psy_w : Q → Q → Q → res Q.
Variable psy_v : Q → Q → res Q.

(** The body of [calculate_thermal_load], with three of its literals
    ([ACH], [θo], [θi]) taken as arguments so that the sensitivity of the
    loads to them can be stated.  The number after [@] is the source line
    of a statement that can raise. *)
Definition thermal_load (ACH0 θo0 θi0 : Q) (fs : gmap string file)
  : run unit :=
  c ← "c" ::= 1000;
  lat ← "lat" ::= 2496e3;
  θi ← "θi" ::= θi0;
  θs ← "θs" ::= θi + 15;
  V ← "V" ::= 3 * 3 * 8;
  Uw ← "Uw" ::= 0.7;
  Sw ← "Sw" ::= 3 * 8;
  θo ← "θo" ::= θo0;
  humidity_data ← "humidity_data" @42 ::=df read_excel fs "humidity.csv" "xlrd";
  ϕ ← "ϕ" @44 ::= (x ← at_ humidity_data 4 "I"; cell_div x 100);
  wo ← "wo" @46 ::= psy_w θo ϕ 0;
  p ← "p" ::= 1;
  Vp ← "Vp" ::= 36;
  Vd ← "Vd" @49 ::= p * Vp // 3600;
  ψ ← "ψ" ::= 0.091;
  h ← "h" ::= 8;
  l ← "l" ::= 3;
  L ← "L" ::= 2 * h + 2 * l;
  Qi ← "Qi" ::= 70 * p;
  ACH ← "ACH" ::= ACH0;
  Vinf ← "Vinf" @59 ::= ACH * V // 3600;
  minf ← "minf" @60 ::= (v ← psy_v θo wo; Vinf // v);
  _ ← print [Lit "Vinf = "; Fixed 2 Vinf; Lit " kg/s"];
  mp ← "mp" @63 ::= (v ← psy_v θo wo; Vd // v);
  Qs ← "Qs" ::= Uw * Sw * (θo - θi) + minf * c * (θo - θi)
                 + ψ * L * (θo - θi) + Qi;
  _ ← print [Lit "Qs = "; Fixed 2 Qs; Lit " W"];
  mvp ← "mvp" @68 ::= 71e-3 // 3600;
  Qla ← "Qla" ::= p * mvp * l;
  m ← "m" @71 ::= (v ← psy_v θo wo; Vd // v);
  Qlat ← "Qlat" ::= m * lat * (wo - ϕ) + Qla;
  _ ← print [Lit "Qlat = "; Fixed 2 Qlat; Lit " W"];
  m ← "m" @76 ::= - Qs // (c * (θs - θi));
  ws ← "ws" @77 ::= (q ← Qlat // (m * lat); mret (ϕ - q));
  _ ← print [Lit "m = "; Fixed 3 m; Lit " kg/s, ws = "; Fixed 3 ws;
             Lit " kg/kg"];
  m ← (if Qgtb m mp then "m" ::= mp else mret m);
  print [Lit "m = "; Fixed 3 m; Lit " ks/s"].

(** [calculate_thermal_load()], with the literals of the source. *)
Definition calculate_thermal_load (fs : gmap string file) : run unit :=
  thermal_load 0.5 (-7.3) 23 fs.

End Script.

(** ** Concrete surroundings used in examples *)

Definition sheet (x : cell) : DataFrame :=
  Frame {[ "I" := [CNum 41; CNum 42; CNum 43; CNum 44; x; CNum 46] ]}.

Definition disk (x : cell) : gmap string file :=
  {[ "humidity.csv" := Workbook (sheet x) ]}.

(** Psychrometric stand-ins: a fixed humidity ratio and specific volume. *)
Definition const_w (w : Q) : Q → Q → Q → res Q := λ _ _ _, Ok w.
Definition const_v (v : Q) : Q → Q → res Q := λ _ _, Ok v.

(** A concrete run: 40 % indoor humidity in the sheet, outdoor humidity
    ratio 0.002 kg/kg and specific volume 0.75 m³/kg. *)
Definition demo : run unit :=
  calculate_thermal_load (const_w 0.002) (const_v 0.75) (disk (CNum 40)).

(** A run in which the clamp does not fire; it takes a negative (unphysical)
    specific volume. *)
Definition unclamped_run : run unit :=
  calculate_thermal_load (const_w 0.002) (const_v (-0.1)) (disk (CNum 40)).

(** Two runs that differ only in the indoor temperature: one degree and two
    degrees above the outdoor temperature of the source. *)
Definition one_degree_run : run unit :=
  thermal_load (const_w 0.002) (const_v 1) 0.5 (-7.3) (-6.3) (disk (CNum 40)).
Definition two_degree_run : run unit :=
  thermal_load (const_w 0.002) (const_v 1) 0.5 (-7.3) (-5.3) (disk (CNum 40)).

(** Psychrometric stand-ins that raise, and stand-ins that answer only at
    the outdoor temperature of the source. *)
Definition raising_w (e : exn) : Q → Q → Q → res Q := λ _ _ _, Raise e.
Definition raising_v (e : exn) : Q → Q → res Q := λ _ _, Raise e.
Definition outdoor_only_w (w : Q) : Q → Q → Q → res Q :=
  λ t _ _, if Qeq_bool t (-7.3) then Ok w else Raise ValueError.
Definition outdoor_only_v (v : Q) : Q → Q → res Q :=
  λ t _, if Qeq_bool t (-7.3) then Ok v else Raise ValueError.

(** The one non-zero specific volume at which the sensible load vanishes. *)
Definition critical_volume : Q := -3030000 # 4997006.

(** The cell the script reads at lines 42 and 44. *)
Definition humidity_cell (fs : gmap string file) : res cell :=
  df ← read_excel fs "humidity.csv" "xlrd"; at_ df 4 "I".

(** A trace without the binding of the data frame: the scalar assignments
    and the printed lines. *)
Definition scalar_events (tr : list event) : list event :=
  omap (λ ev, match ev with
              | Assign _ (VFrame _) => None
              | _ => Some ev
              end) tr.

(** The names a run assigns to, in order, up to and including line 77. *)
Definition names_to_line77 : list string :=
  ["c"; "lat"; "θi"; "θs"; "V"; "Uw"; "Sw"; "θo"; "humidity_data"; "ϕ"; "wo";
   "p"; "Vp"; "Vd"; "ψ"; "h"; "l"; "L"; "Qi"; "ACH"; "Vinf"; "minf"; "mp";
   "Qs"; "mvp"; "Qla"; "m"; "Qlat"; "m"; "ws"].

(** ** Executing the script: helper lemmas and tactics *)

Lemma qdiv_Ok (x y : Q) : Qeq_bool y 0 = false → x // y = Ok (x / y).
Proof. unfold qdiv. now intros ->. Qed.

Lemma qdiv_Outside (x y : Q) : Qeq_bool y 0 = true → x // y = Outside.
Proof. unfold qdiv. now intros ->. Qed.

Lemma Qeq_bool_false (y : Q) : Qeq_bool y 0 = false ↔ ¬ y == 0.
Proof.
  split.
  - intros H E. apply Qeq_bool_iff in E. congruence.
  - intros H. destruct (Qeq_bool y 0) eqn:E; [|done].
    apply Qeq_bool_iff in E. contradiction.
Qed.

(** The divisor of line 76 is the constant 15000, whatever [θi] is. *)
Lemma divisor76 (θi : Q) : 1000 * (θi + 15 - θi) == 15000.
Proof. ring. Qed.

Lemma divisor76_nonzero (θi : Q) : Qeq_bool (1000 * (θi + 15 - θi)) 0 = false.
Proof. apply Qeq_bool_false. rewrite divisor76. discriminate. Qed.

Lemma Qgtb_true (a b : Q) : Qgtb a b = true ↔ b < a.
Proof.
  unfold Qgtb. rewrite negb_true_iff. split.
  - intros H. apply Qnot_le_lt. intros L. apply Qle_bool_iff in L. congruence.
  - intros H. destruct (Qle_bool a b) eqn:E; [|done].
    apply Qle_bool_iff in E. apply Qle_not_lt in E. contradiction.
Qed.

Lemma Qgtb_false (a b : Q) : Qgtb a b = false ↔ a <= b.
Proof.
  unfold Qgtb. rewrite negb_false_iff. apply Qle_bool_iff.
Qed.

(** One step of symbolic execution: reduce the monadic plumbing, leaving the
    arithmetic alone, then split on the next thing the surroundings decide. *)
Ltac plumbing :=
  cbn -[Qplus Qmult Qminus Qdiv Qopp Qinv Qeq_bool Qle_bool Qgtb inject_Z
        Z.pow_pos lookup height Nat.ltb].

Ltac split_on e :=
  first [ match goal with H : e = _ |- _ => rewrite H end
        | let E := fresh "E" in destruct e eqn:E ].

Ltac exec_step :=
  plumbing;
  match goal with
  | |- context [?x // (1000 * (?t + 15 - ?t))] =>
      rewrite (qdiv_Ok x _ (divisor76_nonzero t))
  | |- context [?x // ?y] =>
      first [ rewrite (qdiv_Ok x y) by first [reflexivity | assumption]
            | rewrite (qdiv_Outside x y) by assumption
            | split_on (Qeq_bool y 0) ]
  | |- context [@lookup string file _ _ ?k ?fs] =>
      split_on (@lookup string file _ _ k fs)
  | |- context [match ?f with Workbook _ => _ | Unreadable _ => _ end] =>
      is_var f; destruct f
  | |- context [columns ?df !! ?k] => split_on (columns df !! k)
  | |- context [@lookup nat cell _ _ ?i ?cs] =>
      split_on (@lookup nat cell _ _ i cs)
  | |- context [(?i <? height ?df)%nat] =>
      split_on (i <? height df)%nat
  | |- context [match ?x with CNum _ => _ | CStr _ => _ | CBlank => _ end] =>
      is_var x; destruct x
  | |- context [assign_at _ _ ?r] =>
      lazymatch r with
      | ?r1 ≫= _ => split_on r1
      | _ => split_on r
      end
  | |- context [Qgtb ?a ?b] => split_on (Qgtb a b)
  end.

Ltac exec := unfold read_excel, at_, cell_div; repeat exec_step; plumbing.

(** Execute the run the goal speaks of, once, and split on its outcomes. *)
Ltac run_script :=
  cbv zeta;
  lazymatch goal with
  | |- context [calculate_thermal_load ?w ?v ?fs] =>
      let r := fresh "r" in
      let Hr := fresh "Hr" in
      remember (calculate_thermal_load w v fs) as r eqn:Hr;
      revert Hr; unfold calculate_thermal_load, thermal_load; exec;
      intros ->; plumbing
  end.

(** The same for runs of [thermal_load] with arbitrary literals. *)
Ltac run_general :=
  cbv zeta;
  lazymatch goal with
  | |- context [thermal_load ?w ?v ?a ?o ?i ?fs] =>
      let r := fresh "r" in
      let Hr := fresh "Hr" in
      remember (thermal_load w v a o i fs) as r eqn:Hr;
      revert Hr; unfold thermal_load; exec;
      intros ->; plumbing
  end.

(** Split a fact about the cell the script reads into its cases. *)
Ltac read_cases H :=
  unfold humidity_cell, read_excel, at_ in H; cbn -[height Nat.ltb] in H;
  repeat (match type of H with
          | context [match ?e with _ => _ end] =>
              lazymatch e with
              | context [match _ with _ => _ end] => fail
              | _ => destruct e eqn:?
              end
          end; cbn -[height Nat.ltb] in H);
  try discriminate H; simplify_eq.

(** ** The loads *)

Lemma neg_load_pos_flow (Qs : Q) : Qs < 0 → 0 < - Qs / (1000 * (23 + 15 - 23)).
Proof.
  intros H.
  assert (E : - Qs / (1000 * (23 + 15 - 23)) == - Qs * (1 # 15000)) by field.
  rewrite E. lra.
Qed.

(** The divisor of line 77 is zero exactly when the sensible load is. *)
Lemma divisor77_zero (Qs : Q) :
  Qeq_bool (- Qs / (1000 * (23 + 15 - 23)) * 2496e3) 0 = true ↔ Qs == 0.
Proof.
  rewrite Qeq_bool_iff.
  assert (E : - Qs / (1000 * (23 + 15 - 23)) * 2496e3 == Qs * (-2496 # 15))
    by (change 2496e3 with 2496000; field).
  rewrite E. split; intros F; [lra | rewrite F; reflexivity].
Qed.

Section Loads.

Variable psy_w : Q → Q → Q → res Q.
Variable psy_v : Q → Q → res Q.

(** C1: in a run that completes, the supply flow reported at the end, which
    is also the final value of [m], is [mp] when the flow [m_raw] of line 76
    exceeds [mp], and [m_raw] otherwise. *)
Theorem clamp_final_m fs m_raw mp :
  let r := calculate_thermal_load psy_w psy_v fs in
  result r = Done tt →
  nums "m" (trace r) !! 1%nat = Some m_raw →
  trace r ⊨ "mp" ↦ mp →
  (mp < m_raw → reported (trace r) = Some mp ∧ trace r ⊨ "m" ↦ mp) ∧
  (¬ mp < m_raw → reported (trace r) = Some m_raw ∧ trace r ⊨ "m" ↦ m_raw).
Proof.
  run_script; try discriminate; intros _ [= <-] [= <-].
  - apply Qgtb_true in E6. split; [done|]. intros H. contradiction.
  - apply Qgtb_false in E6. split; [|done]. intros H.
    apply Qle_not_lt in E6. contradiction.
Qed.

(** C2: when the cell is a number, both psychrometric functions answer and
    the specific volume is not zero, the run binds [Qs] and [Qlat] and then,
    at line 76, the flow [m = −Qs / (c·(θs−θi))] with [θs = θi + 15 > θi],
    which is strictly positive when [Qs < 0].  Unless [Qs] is zero it goes
    on to bind [ws = ϕ − Qlat / (m·lat)] at line 77, and completes. *)
Theorem supply_flow_and_humidity fs x wo vol :
  let r := calculate_thermal_load psy_w psy_v fs in
  let c := 1000 in
  let lat := 2496e3 in
  let θi := 23 in
  let θs := θi + 15 in
  let ϕ := x / 100 in
  let minf := 0.5 * (3 * 3 * 8) / 3600 / vol in
  let Qs := 0.7 * (3 * 8) * (-7.3 - θi) + minf * c * (-7.3 - θi)
            + 0.091 * (2 * 8 + 2 * 3) * (-7.3 - θi) + 70 * 1 in
  let Qlat := 1 * 36 / 3600 / vol * lat * (wo - ϕ) + 1 * (71e-3 / 3600) * 3 in
  let m := - Qs / (c * (θs - θi)) in
  humidity_cell fs = Ok (CNum x) →
  psy_w (-7.3) ϕ 0 = Ok wo →
  psy_v (-7.3) wo = Ok vol →
  ¬ vol == 0 →
  trace r ⊨ "Qs" ↦ Qs ∧ trace r ⊨ "Qlat" ↦ Qlat ∧
  trace r ⊨ "c" ↦ c ∧ trace r ⊨ "θs" ↦ θs ∧ trace r ⊨ "θi" ↦ θi ∧
  trace r ⊨ "lat" ↦ lat ∧ trace r ⊨ "ϕ" ↦ ϕ ∧
  nums "m" (trace r) !! 1%nat = Some m ∧
  θi < θs ∧
  (Qs < 0 → 0 < m) ∧
  (¬ Qs == 0 →
   trace r ⊨ "ws" ↦ (ϕ - Qlat / (m * lat)) ∧ result r = Done tt).
Proof.
  intros r c lat θi θs ϕ minf Qs Qlat m Hc Hw Hv Hz.
  subst r c lat θi θs ϕ minf Qs Qlat m. read_cases Hc.
  apply Qeq_bool_false in Hz.
  run_script.
  all: do 9 (split; [reflexivity|]).
  all: split; [apply neg_load_pos_flow|]; intros HQ.
  - apply divisor77_zero in E. contradiction.
  - done.
  - done.
Qed.

(** C3: when the cell is a number, both psychrometric functions answer and
    the specific volume is not zero, the run binds the constants of the
    source, [L = 2h + 2l], [Qi = 70·p], the infiltration flow
    [minf = Vinf / vol], and then
    [Qs = Uw·Sw·(θo−θi) + minf·c·(θo−θi) + ψ·L·(θo−θi) + Qi]. *)
Theorem sensible_load fs x wo vol :
  let tr := trace (calculate_thermal_load psy_w psy_v fs) in
  let c := 1000 in
  let θi := 23 in
  let Uw := 0.7 in
  let Sw := 3 * 8 in
  let θo := -7.3 in
  let p := 1 in
  let ψ := 0.091 in
  let h := 8 in
  let l := 3 in
  let L := 2 * h + 2 * l in
  let Qi := 70 * p in
  let Vinf := 0.5 * (3 * 3 * 8) / 3600 in
  let minf := Vinf / vol in
  humidity_cell fs = Ok (CNum x) →
  psy_w θo (x / 100) 0 = Ok wo →
  psy_v θo wo = Ok vol →
  ¬ vol == 0 →
  tr ⊨ "c" ↦ c ∧ tr ⊨ "θi" ↦ θi ∧ tr ⊨ "Uw" ↦ Uw ∧ tr ⊨ "Sw" ↦ Sw ∧
  tr ⊨ "θo" ↦ θo ∧ tr ⊨ "p" ↦ p ∧ tr ⊨ "ψ" ↦ ψ ∧ tr ⊨ "h" ↦ h ∧
  tr ⊨ "l" ↦ l ∧ tr ⊨ "L" ↦ L ∧ tr ⊨ "Qi" ↦ Qi ∧ tr ⊨ "Vinf" ↦ Vinf ∧
  tr ⊨ "minf" ↦ minf ∧
  tr ⊨ "Qs" ↦ (Uw * Sw * (θo - θi) + minf * c * (θo - θi)
               + ψ * L * (θo - θi) + Qi).
Proof.
  intros tr c θi Uw Sw θo p ψ h l L Qi Vinf minf Hc Hw Hv Hz.
  subst tr c θi Uw Sw θo p ψ h l L Qi Vinf minf. read_cases Hc.
  apply Qeq_bool_false in Hz.
  run_script; repeat split.
Qed.

(** C4: under the same conditions the run binds [mp = Vd / vol], binds [m]
    at line 71 by the same expression, so to the same flow, binds
    [Qla = p·mvp·l], and then [Qlat = m·lat·(wo−ϕ) + Qla] for that [m], the
    outdoor humidity ratio [wo] that [psy.w] answered and [ϕ] from the
    cell. *)
Theorem latent_load fs x wo vol :
  let tr := trace (calculate_thermal_load psy_w psy_v fs) in
  let lat := 2496e3 in
  let ϕ := x / 100 in
  let p := 1 in
  let Vp := 36 in
  let Vd := p * Vp / 3600 in
  let l := 3 in
  let mvp := 71e-3 / 3600 in
  let Qla := p * mvp * l in
  let m := Vd / vol in
  humidity_cell fs = Ok (CNum x) →
  psy_w (-7.3) ϕ 0 = Ok wo →
  psy_v (-7.3) wo = Ok vol →
  ¬ vol == 0 →
  tr ⊨ "lat" ↦ lat ∧ tr ⊨ "ϕ" ↦ ϕ ∧ tr ⊨ "wo" ↦ wo ∧ tr ⊨ "p" ↦ p ∧
  tr ⊨ "Vp" ↦ Vp ∧ tr ⊨ "Vd" ↦ Vd ∧ tr ⊨ "l" ↦ l ∧ tr ⊨ "mvp" ↦ mvp ∧
  tr ⊨ "Qla" ↦ Qla ∧
  tr ⊨ "mp" ↦ m ∧ nums "m" tr !! 0%nat = Some m ∧
  tr ⊨ "Qlat" ↦ (m * lat * (wo - ϕ) + Qla).
Proof.
  intros tr lat ϕ p Vp Vd l mvp Qla m Hc Hw Hv Hz.
  subst tr lat ϕ p Vp Vd l mvp Qla m. read_cases Hc.
  apply Qeq_bool_false in Hz.
  run_script; repeat split.
Qed.

End Loads.
(** ** Failures *)

Lemma over_divisor76 (x : Q) : x / (1000 * (23 + 15 - 23)) == x / 15000.
Proof. field. Qed.

Section Failures.

Variable psy_w : Q → Q → Q → res Q.
Variable psy_v : Q → Q → res Q.


(** C10: [θs] is [θi + 15], so the divisor [c·(θs−θi)] of line 76 is 15000
    whatever the humidity and the psychrometric functions are, and no run
    dies at line 76: once [Qs] is assigned, so is the flow [−Qs / 15000]. *)
Theorem line76_never_raises fs :
  let r := calculate_thermal_load psy_w psy_v fs in
  (∀ e, result r ≠ Fail e 76) ∧
  result r ≠ Escaped 76 ∧
  (∀ Qs, trace r ⊨ "Qs" ↦ Qs →
     ∃ c θs θi m,
       trace r ⊨ "c" ↦ c ∧ trace r ⊨ "θs" ↦ θs ∧ trace r ⊨ "θi" ↦ θi ∧
       θs = θi + 15 ∧ c * (θs - θi) == 15000 ∧
       - Qs // (c * (θs - θi)) = Ok m ∧
       nums "m" (trace r) !! 1%nat = Some m ∧ m == - Qs / 15000).
Proof.
  run_script; (split; [intros ?; discriminate|]); (split; [discriminate|]);
    intros Qs; try discriminate.
  all: intros [= <-]; do 4 eexists; do 5 (split; [reflexivity|]).
  all: split; [reflexivity|]; split; [reflexivity|]; apply over_divisor76.
Qed.

End Failures.
(** ** Assignments: what is rebound, and when *)

Lemma humidity_mismatch (ϕ Qlat lat m1 m2 : Q) :
  ¬ m1 * lat == 0 → ¬ m1 == m2 → ¬ Qlat == 0 →
  ¬ ϕ - Qlat / (m1 * lat) == ϕ - Qlat / (m2 * lat).
Proof.
  intros H1 Hne HQ H.
  assert (Hlat : ¬ lat == 0) by (intros Z; apply H1; rewrite Z; ring).
  assert (Hm1 : ¬ m1 == 0) by (intros Z; apply H1; rewrite Z; ring).
  assert (E : Qlat / (m1 * lat) == Qlat / (m2 * lat)) by lra.
  assert (E1 : Qlat == Qlat / (m1 * lat) * (m1 * lat)) by (field; done).
  destruct (Qeq_dec m2 0) as [Z|NZ].
  - apply HQ. rewrite E1, E, Z.
    assert (E0 : 0 * lat == 0) by ring. rewrite E0.
    unfold Qdiv. change (/ 0) with 0. ring.
  - assert (E2 : Qlat * (lat * (m2 - m1)) == 0).
    { assert (E4 : Qlat * (m2 * lat) == Qlat * (m1 * lat)).
      { transitivity (Qlat / (m1 * lat) * ((m1 * lat) * (m2 * lat)));
          [field; done|].
        rewrite E. field. done. }
      transitivity (Qlat * (m2 * lat) - Qlat * (m1 * lat)); [ring|].
      rewrite E4. ring. }
    apply Qmult_integral in E2 as [E2|E2]; [contradiction|].
    apply Qmult_integral in E2 as [E2|E2]; [contradiction|].
    apply Hne. lra.
Qed.

Section Assignments.

Variable psy_w : Q → Q → Q → res Q.
Variable psy_v : Q → Q → res Q.

(** C5, as the script has it: a run is determined by the cell it reads
    (all its scalar assignments, its output and its outcome are the same
    for two file systems that give the same cell); no name other than [m]
    is ever assigned twice; and a run that completes has assigned [m] at
    line 71, again at line 76, and a third time at line 83 when the clamp
    fires. *)
Theorem assignments_per_run fs :
  let r := calculate_thermal_load psy_w psy_v fs in
  (∀ fs', humidity_cell fs' = humidity_cell fs →
     result (calculate_thermal_load psy_w psy_v fs') = result r ∧
     scalar_events (trace (calculate_thermal_load psy_w psy_v fs'))
     = scalar_events (trace r)) ∧
  NoDup (writes_except "m" (trace r)) ∧
  (result r = Done tt →
     ∃ m71 m76 mp,
       trace r ⊨ "mp" ↦ mp ∧
       nums "m" (trace r) = m71 :: m76 :: (if Qgtb m76 mp then [mp] else []) ∧
       writes (trace r)
       = (names_to_line77 ++ (if Qgtb m76 mp then ["m"] else []))%list).
Proof.
  cbv zeta. split; [|split].
  - intros fs' H. read_cases H.
    all: run_script; done.
  - run_script.
    all: apply (bool_decide_unpack _); vm_compute; exact I.
  - run_script; try discriminate; intros _.
    all: do 3 eexists; split; [reflexivity|].
    all: rewrite E6; split; reflexivity.
Qed.

(** C9: in a run that completes, [ws] is assigned once, at line 77, from
    the flow of line 76 and before the clamp; the line that prints [ws]
    prints that flow next to it.  When the clamp fires the final [m] is [mp],
    a different flow, and [ws] is not the humidity the formula gives for
    [mp] (unless the latent load is zero). *)
Theorem humidity_from_unclamped_flow fs m_raw mp ws :
  let r := calculate_thermal_load psy_w psy_v fs in
  result r = Done tt →
  nums "m" (trace r) !! 1%nat = Some m_raw →
  trace r ⊨ "mp" ↦ mp →
  trace r ⊨ "ws" ↦ ws →
  ∃ ϕ Qlat lat,
    trace r ⊨ "ϕ" ↦ ϕ ∧ trace r ⊨ "Qlat" ↦ Qlat ∧ trace r ⊨ "lat" ↦ lat ∧
    ws == ϕ - Qlat / (m_raw * lat) ∧
    nums "ws" (trace r) = [ws] ∧
    (∃ pre post,
       trace r = (pre ++ Assign "ws" (VNum ws) :: post)%list ∧
       nums "m" pre !! 1%nat = Some m_raw ∧
       nums "m" post = (if Qgtb m_raw mp then [mp] else [])) ∧
    stdout (trace r) !! 3%nat
    = Some [Lit "m = "; Fixed 3 m_raw; Lit " kg/s, ws = "; Fixed 3 ws;
            Lit " kg/kg"] ∧
    (mp < m_raw →
       reported (trace r) = Some mp ∧ trace r ⊨ "m" ↦ mp ∧ ¬ mp == m_raw ∧
       (¬ Qlat == 0 → ¬ ws == ϕ - Qlat / (mp * lat))).
Proof.
  run_script; try discriminate; intros _ [= <-] [= <-] [= <-]; try congruence.
  all: do 3 eexists; do 5 (split; [reflexivity|]).
  all: split;
    [ match goal with
      | |- ∃ pre post, ?tr = _ ∧ _ =>
          exists (take 32 tr), (drop 33 tr); done
      end | ].
  all: split; [reflexivity|]; intros Hlt.
  - split; [reflexivity|]. split; [reflexivity|].
    split; [lra|]. intros HQ. apply humidity_mismatch; [|lra|exact HQ].
    apply Qeq_bool_false. exact E5.
  - apply Qgtb_false in E6. lra.
Qed.

End Assignments.

(** ** Sensitivity of the loads to [ACH] and to the temperatures *)

Lemma Vinf_mono (A1 A2 : Q) :
  A1 < A2 → A1 * (3 * 3 * 8) / 3600 < A2 * (3 * 3 * 8) / 3600.
Proof.
  intros H.
  assert (E : ∀ A, A * (3 * 3 * 8) / 3600 == A * (1 # 50)) by (intros; field).
  rewrite !E. lra.
Qed.

Lemma over_volume_mono (x y vol : Q) : 0 < vol → x < y → x / vol < y / vol.
Proof.
  intros Hv H. apply Qmult_lt_r; [|exact H]. now apply Qinv_lt_0_compat.
Qed.

(** The sensible load is affine in the temperature difference. *)
Lemma Qs_affine (minf d : Q) :
  0.7 * (3 * 8) * d + minf * 1000 * d + 0.091 * (2 * 8 + 2 * 3) * d + 70 * 1
  == (18.802 + 1000 * minf) * d + 70 * 1.
Proof. ring. Qed.

Lemma abs_load_mono (K G d1 d2 Q1 Q2 : Q) :
  0 < K → 0 <= G →
  Q1 == K * d1 + G → Q2 == K * d2 + G →
  Qabs d1 < Qabs d2 →
  Qabs (Q1 - G) < Qabs (Q2 - G) ∧
  (0 <= d1 → 0 <= d2 → Qabs Q1 < Qabs Q2) ∧
  (d1 <= 0 → d2 <= 0 → Q1 <= 0 → Qabs Q1 < Qabs Q2).
Proof.
  intros HK HG E1 E2 Hd.
  assert (F1 : Q1 - G == K * d1) by (rewrite E1; ring).
  assert (F2 : Q2 - G == K * d2) by (rewrite E2; ring).
  assert (HKle : 0 <= K) by lra.
  split; [|split].
  - rewrite F1, F2, !Qabs_Qmult, (Qabs_pos K HKle).
    now apply Qmult_lt_l.
  - intros P1 P2. rewrite (Qabs_pos d1 P1), (Qabs_pos d2 P2) in Hd.
    apply (Qmult_lt_l _ _ K HK) in Hd.
    assert (0 <= K * d1) by (apply Qmult_le_0_compat; assumption).
    rewrite !Qabs_pos by lra. lra.
  - intros N1 N2 NQ. rewrite (Qabs_neg d1 N1), (Qabs_neg d2 N2) in Hd.
    apply (Qmult_lt_l _ _ K HK) in Hd.
    assert (L1 : K * - d1 == - (K * d1)) by ring.
    assert (L2 : K * - d2 == - (K * d2)) by ring.
    rewrite L1, L2 in Hd.
    rewrite !Qabs_neg by lra. lra.
Qed.

Section Sensitivity.

Variable psy_w : Q → Q → Q → res Q.
Variable psy_v : Q → Q → res Q.

(** C6, as the formulas have it.  With everything else fixed and a
    positive specific volume, a larger [ACH] gives a larger [Vinf] and a
    larger [minf].  With the same non-negative [minf], a larger [|θo−θi|]
    gives a larger [|Qs − Qi|]; it gives a larger [|Qs|] when [θo ≥ θi] in
    both runs, and when [θo ≤ θi] in both runs and [Qs ≤ 0] already at the
    smaller difference. *)
Theorem load_sensitivity fs :
  (∀ ACH1 ACH2 θo θi,
     let tr1 := trace (thermal_load psy_w psy_v ACH1 θo θi fs) in
     let tr2 := trace (thermal_load psy_w psy_v ACH2 θo θi fs) in
     ACH1 < ACH2 →
     (∀ V1 V2, tr1 ⊨ "Vinf" ↦ V1 → tr2 ⊨ "Vinf" ↦ V2 → V1 < V2) ∧
     (∀ wo vol m1 m2,
        tr1 ⊨ "wo" ↦ wo → psy_v θo wo = Ok vol → 0 < vol →
        tr1 ⊨ "minf" ↦ m1 → tr2 ⊨ "minf" ↦ m2 → m1 < m2)) ∧
  (∀ ACH θo1 θi1 θo2 θi2 minf1 minf2 Qs1 Qs2 Qi,
     let tr1 := trace (thermal_load psy_w psy_v ACH θo1 θi1 fs) in
     let tr2 := trace (thermal_load psy_w psy_v ACH θo2 θi2 fs) in
     tr1 ⊨ "minf" ↦ minf1 → tr2 ⊨ "minf" ↦ minf2 →
     minf1 == minf2 → 0 <= minf1 →
     tr1 ⊨ "Qs" ↦ Qs1 → tr2 ⊨ "Qs" ↦ Qs2 → tr1 ⊨ "Qi" ↦ Qi →
     Qabs (θo1 - θi1) < Qabs (θo2 - θi2) →
     Qabs (Qs1 - Qi) < Qabs (Qs2 - Qi) ∧
     (0 <= θo1 - θi1 → 0 <= θo2 - θi2 → Qabs Qs1 < Qabs Qs2) ∧
     (θo1 - θi1 <= 0 → θo2 - θi2 <= 0 → Qs1 <= 0 → Qabs Qs1 < Qabs Qs2)).
Proof.
  split.
  - intros ACH1 ACH2 θo θi. run_general; intros HA.
    all: split; [intros V1 V2 | intros wo vol m1 m2]; try discriminate.
    all: try (intros [= <-] [= <-]; now apply Vinf_mono).
    all: intros [= <-] Hv Hpos; try discriminate; intros [= <-] [= <-].
    all: assert (vol = a0) as -> by congruence.
    all: apply over_volume_mono; [exact Hpos|]; now apply Vinf_mono.
  - intros ACH θo1 θi1 θo2 θi2 minf1 minf2 Qs1 Qs2 Qi.
    run_general; try discriminate; intros [= <-]; try discriminate.
    all: intros [= <-] Hm Hpos [= <-] [= <-] [= <-] Hd.
    all: match type of Hpos with 0 <= ?m => set (mm := m) in * end.
    all: apply (abs_load_mono (18.802 + 1000 * mm));
      [lra | discriminate | | | exact Hd].
    all: rewrite <- ?Hm; apply Qs_affine.
Qed.

End Sensitivity.

Lemma demo_completes : result demo = Done tt.
Proof. vm_compute. reflexivity. Defined.

(** The run [demo]: what it prints, and that its clamp fires. *)
Example demo_output :
  ∃ Vinf Qs Qlat m ws mp,
    stdout (trace demo)
    = [ [Lit "Vinf = "; Fixed 2 Vinf; Lit " kg/s"];
        [Lit "Qs = "; Fixed 2 Qs; Lit " W"];
        [Lit "Qlat = "; Fixed 2 Qlat; Lit " W"];
        [Lit "m = "; Fixed 3 m; Lit " kg/s, ws = "; Fixed 3 ws; Lit " kg/kg"];
        [Lit "m = "; Fixed 3 mp; Lit " ks/s"] ] ∧
    Vinf == 0.01 ∧ Qs == -903.7006 ∧ m * 15000 == 903.7006 ∧
    mp == 1 # 75 ∧ mp < m.
Proof.
  eexists _, _, _, _, _, _. split; [vm_compute; reflexivity|].
  repeat split.
Qed.

(** The run [unclamped_run]: the flow of line 76 is below [mp] and is the
    flow reported. *)
Example unclamped_output :
  ∃ m71 m76 mp,
    result unclamped_run = Done tt ∧
    nums "m" (trace unclamped_run) = [m71; m76] ∧
    trace unclamped_run ⊨ "mp" ↦ mp ∧
    reported (trace unclamped_run) = Some m76 ∧
    mp == -0.1 ∧ m76 * 15000 == -2530.2994 ∧ m76 < mp.
Proof.
  eexists _, _, _. do 4 (split; [vm_compute; reflexivity|]).
  repeat split.
Qed.

Lemma clamp_final_m_witness :
  ∃ m_raw mp,
    nums "m" (trace demo) !! 1%nat = Some m_raw ∧ trace demo ⊨ "mp" ↦ mp ∧
    mp < m_raw ∧ reported (trace demo) = Some mp ∧ trace demo ⊨ "m" ↦ mp.
Proof.
  eexists _, _.
  split; [vm_compute; reflexivity|]. split; [vm_compute; reflexivity|].
  split; [reflexivity|].
  refine (proj1 (clamp_final_m (const_w 0.002) (const_v 0.75) (disk (CNum 40))
                   _ _ demo_completes _ _) _).
  - vm_compute. reflexivity.
  - vm_compute. reflexivity.
  - reflexivity.
Defined.

Lemma supply_flow_and_humidity_witness :
  ∃ Qs Qlat m ws,
    trace demo ⊨ "Qs" ↦ Qs ∧ trace demo ⊨ "Qlat" ↦ Qlat ∧
    nums "m" (trace demo) !! 1%nat = Some m ∧ trace demo ⊨ "ws" ↦ ws ∧
    result demo = Done tt ∧
    Qs == -903.7006 ∧ m * 15000 == 903.7006 ∧ 0 < m ∧
    ws == 0.4 - Qlat / (m * 2496000).
Proof.
  pose proof (supply_flow_and_humidity (const_w 0.002) (const_v 0.75)
                (disk (CNum 40)) 40 0.002 0.75 eq_refl eq_refl eq_refl)
    as H.
  cbv zeta in H.
  destruct H as (HQs & HQlat & _ & _ & _ & _ & _ & Hm & _ & Hpos & Hws);
    [discriminate|].
  destruct Hws as [Hws Hdone]; [discriminate|].
  eexists _, _, _, _.
  split; [exact HQs|]. split; [exact HQlat|]. split; [exact Hm|].
  split; [exact Hws|]. split; [exact Hdone|].
  split; [reflexivity|]. split; [reflexivity|].
  split; [apply Hpos; reflexivity | reflexivity].
Defined.

Lemma sensible_load_witness :
  let tr := trace demo in
  tr ⊨ "c" ↦ 1000 ∧ tr ⊨ "θi" ↦ 23 ∧ tr ⊨ "Uw" ↦ 0.7 ∧ tr ⊨ "Sw" ↦ (3 * 8) ∧
  tr ⊨ "θo" ↦ (-7.3) ∧ tr ⊨ "p" ↦ 1 ∧ tr ⊨ "ψ" ↦ 0.091 ∧ tr ⊨ "h" ↦ 8 ∧
  tr ⊨ "l" ↦ 3 ∧ tr ⊨ "L" ↦ (2 * 8 + 2 * 3) ∧ tr ⊨ "Qi" ↦ (70 * 1) ∧
  tr ⊨ "Vinf" ↦ (0.5 * (3 * 3 * 8) / 3600) ∧
  tr ⊨ "minf" ↦ (0.5 * (3 * 3 * 8) / 3600 / 0.75) ∧
  tr ⊨ "Qs" ↦ (0.7 * (3 * 8) * (-7.3 - 23)
               + 0.5 * (3 * 3 * 8) / 3600 / 0.75 * 1000 * (-7.3 - 23)
               + 0.091 * (2 * 8 + 2 * 3) * (-7.3 - 23) + 70 * 1).
Proof.
  apply (sensible_load (const_w 0.002) (const_v 0.75) (disk (CNum 40))
           40 0.002 0.75); [reflexivity | reflexivity | reflexivity |].
  discriminate.
Defined.

Lemma latent_load_witness :
  let tr := trace demo in
  tr ⊨ "lat" ↦ 2496e3 ∧ tr ⊨ "ϕ" ↦ (40 / 100) ∧ tr ⊨ "wo" ↦ 0.002 ∧
  tr ⊨ "p" ↦ 1 ∧ tr ⊨ "Vp" ↦ 36 ∧ tr ⊨ "Vd" ↦ (1 * 36 / 3600) ∧
  tr ⊨ "l" ↦ 3 ∧ tr ⊨ "mvp" ↦ (71e-3 / 3600) ∧
  tr ⊨ "Qla" ↦ (1 * (71e-3 / 3600) * 3) ∧
  tr ⊨ "mp" ↦ (1 * 36 / 3600 / 0.75) ∧
  nums "m" tr !! 0%nat = Some (1 * 36 / 3600 / 0.75) ∧
  tr ⊨ "Qlat" ↦ (1 * 36 / 3600 / 0.75 * 2496e3 * (0.002 - 40 / 100)
                 + 1 * (71e-3 / 3600) * 3).
Proof.
  apply (latent_load (const_w 0.002) (const_v 0.75) (disk (CNum 40))
           40 0.002 0.75); [reflexivity | reflexivity | reflexivity |].
  discriminate.
Defined.

Lemma humidity_from_unclamped_flow_witness :
  let r := demo in
  ∃ m_raw mp ws,
    nums "m" (trace r) !! 1%nat = Some m_raw ∧ trace r ⊨ "mp" ↦ mp ∧
    trace r ⊨ "ws" ↦ ws ∧
  ∃ ϕ Qlat lat,
    trace r ⊨ "ϕ" ↦ ϕ ∧ trace r ⊨ "Qlat" ↦ Qlat ∧ trace r ⊨ "lat" ↦ lat ∧
    ws == ϕ - Qlat / (m_raw * lat) ∧
    nums "ws" (trace r) = [ws] ∧
    (∃ pre post,
       trace r = (pre ++ Assign "ws" (VNum ws) :: post)%list ∧
       nums "m" pre !! 1%nat = Some m_raw ∧
       nums "m" post = (if Qgtb m_raw mp then [mp] else [])) ∧
    stdout (trace r) !! 3%nat
    = Some [Lit "m = "; Fixed 3 m_raw; Lit " kg/s, ws = "; Fixed 3 ws;
            Lit " kg/kg"] ∧
    (mp < m_raw →
       reported (trace r) = Some mp ∧ trace r ⊨ "m" ↦ mp ∧ ¬ mp == m_raw ∧
       (¬ Qlat == 0 → ¬ ws == ϕ - Qlat / (mp * lat))).
Proof.
  eexists _, _, _.
  do 3 (split; [vm_compute; reflexivity|]).
  apply (humidity_from_unclamped_flow (const_w 0.002) (const_v 0.75)
           (disk (CNum 40))).
  - exact demo_completes.
  - vm_compute. reflexivity.
  - vm_compute. reflexivity.
  - vm_compute. reflexivity.
Defined.

(** C5 fails as stated: in the run [demo], which completes, the name [m] is
    assigned three times, with two different values. *)
Lemma m_assigned_thrice :
  result demo = Done tt ∧
  nums "m" (trace demo)
  = [3600 # 270000; 24399916200000000 # 405000000000000000; 3600 # 270000] ∧
  ¬ (3600 # 270000 == 24399916200000000 # 405000000000000000) ∧
  ¬ NoDup (writes (trace demo)).
Proof.
  split; [exact demo_completes|]. split; [vm_compute; reflexivity|].
  split; [discriminate|].
  intros H. apply (bool_decide_pack _) in H. vm_compute in H. exact H.
Defined.

Lemma assignments_per_run_witness :
  let r := demo in
  ∃ m71 m76 mp,
    trace r ⊨ "mp" ↦ mp ∧
    nums "m" (trace r) = m71 :: m76 :: (if Qgtb m76 mp then [mp] else []) ∧
    writes (trace r)
    = (names_to_line77 ++ (if Qgtb m76 mp then ["m"] else []))%list.
Proof.
  exact (proj2 (proj2 (assignments_per_run (const_w 0.002) (const_v 0.75)
                         (disk (CNum 40))))
           demo_completes).
Defined.

(** C6 fails as stated: between [one_degree_run] and [two_degree_run] only
    the indoor temperature differs, [|θo−θi|] grows from 1 to 2 with the same
    [minf], and [|Qs|] shrinks from 41.198 to 12.396. *)
Lemma larger_difference_smaller_load :
  let tr1 := trace one_degree_run in
  let tr2 := trace two_degree_run in
  result one_degree_run = Done tt ∧ result two_degree_run = Done tt ∧
  (∃ minf, tr1 ⊨ "minf" ↦ minf ∧ tr2 ⊨ "minf" ↦ minf) ∧
  Qabs (-7.3 - -6.3) < Qabs (-7.3 - -5.3) ∧
  ∃ Qs1 Qs2,
    tr1 ⊨ "Qs" ↦ Qs1 ∧ tr2 ⊨ "Qs" ↦ Qs2 ∧
    Qs1 == 41.198 ∧ Qs2 == 12.396 ∧ ¬ Qabs Qs1 < Qabs Qs2.
Proof.
  cbv zeta. split; [vm_compute; reflexivity|]. split; [vm_compute; reflexivity|].
  split; [eexists; split; vm_compute; reflexivity|].
  split; [reflexivity|].
  eexists _, _. split; [vm_compute; reflexivity|].
  split; [vm_compute; reflexivity|].
  split; [reflexivity|]. split; [reflexivity|]. discriminate.
Defined.

Lemma load_sensitivity_witness :
  let ld := thermal_load (const_w 0.002) (const_v 0.75) in
  let fs := disk (CNum 40) in
  (∃ V1 V2 m1 m2,
     trace (ld 0.5 (-7.3) 23 fs) ⊨ "Vinf" ↦ V1 ∧
     trace (ld 1 (-7.3) 23 fs) ⊨ "Vinf" ↦ V2 ∧
     trace (ld 0.5 (-7.3) 23 fs) ⊨ "minf" ↦ m1 ∧
     trace (ld 1 (-7.3) 23 fs) ⊨ "minf" ↦ m2 ∧
     V1 < V2 ∧ m1 < m2) ∧
  (∃ Qs1 Qs2,
     trace (ld 0.5 (-7.3) 23 fs) ⊨ "Qs" ↦ Qs1 ∧
     trace (ld 0.5 (-7.3) 30 fs) ⊨ "Qs" ↦ Qs2 ∧
     Qabs Qs1 < Qabs Qs2).
Proof.
  cbv zeta.
  destruct (load_sensitivity (const_w 0.002) (const_v 0.75) (disk (CNum 40)))
    as [HA HT].
  split.
  - eexists _, _, _, _. do 4 (split; [vm_compute; reflexivity|]).
    destruct (HA 0.5 1 (-7.3) 23 eq_refl) as [HV Hm]. split.
    + apply HV; vm_compute; reflexivity.
    + apply (Hm 0.002 0.75); solve [vm_compute; reflexivity | reflexivity].
  - eexists _, _. do 2 (split; [vm_compute; reflexivity|]).
    refine (proj2 (proj2 (HT 0.5 (-7.3) 23 (-7.3) 30 _ _ _ _ _ _ _ _ _ _ _ _ _))
              _ _ _).
    all: solve [vm_compute; reflexivity | reflexivity | discriminate].
Defined.

Lemma line76_never_raises_witness :
  ∃ Qs c θs θi m,
    trace demo ⊨ "Qs" ↦ Qs ∧
    trace demo ⊨ "c" ↦ c ∧ trace demo ⊨ "θs" ↦ θs ∧ trace demo ⊨ "θi" ↦ θi ∧
    θs = θi + 15 ∧ c * (θs - θi) == 15000 ∧
    - Qs // (c * (θs - θi)) = Ok m ∧
    nums "m" (trace demo) !! 1%nat = Some m ∧ m == - Qs / 15000.
Proof.
  eexists. 
  assert (H : trace demo ⊨ "Qs" ↦ (-24399916200000000 # 27000000000000))
    by (vm_compute; reflexivity).
  destruct (proj2 (proj2 (line76_never_raises (const_w 0.002) (const_v 0.75)
                            (disk (CNum 40)))) _ H)
    as (c & θs & θi & m & H').
  exists c, θs, θi, m. split; [exact H | exact H'].
Defined.

(** ** The outcomes of a run *)

(** The sensible load in terms of the specific volume alone. *)
Lemma Qs_of_volume (vol : Q) :
  ¬ vol == 0 →
  0.7 * (3 * 8) * (-7.3 - 23)
  + 0.5 * (3 * 3 * 8) / 3600 / vol * 1000 * (-7.3 - 23)
  + 0.091 * (2 * 8 + 2 * 3) * (-7.3 - 23) + 70 * 1
  == -499.7006 - 303 / vol.
Proof. intros H. field. exact H. Qed.

Lemma Qs_zero_iff (vol : Q) :
  ¬ vol == 0 → (-499.7006 - 303 / vol == 0 ↔ vol == critical_volume).
Proof.
  intros H. unfold critical_volume. split; intros E.
  - assert (F : vol * (-499.7006 - 303 / vol) == -499.7006 * vol - 303)
      by (field; exact H).
    rewrite E in F. lra.
  - rewrite E. reflexivity.
Qed.

Section Outcomes.

Variable psy_w : Q → Q → Q → res Q.
Variable psy_v : Q → Q → res Q.



(** X4: an exception raised by [psy.w] kills the run at line 46, one raised
    by [psy.v] kills it at line 60; the exception is passed on unchanged and
    nothing has been printed. *)
Theorem psychro_errors_propagate fs x :
  let r := calculate_thermal_load psy_w psy_v fs in
  humidity_cell fs = Ok (CNum x) →
  (∀ e, psy_w (-7.3) (x / 100) 0 = Raise e →
        result r = Fail e 46 ∧ stdout (trace r) = [] ∧
        nums "wo" (trace r) = []) ∧
  (∀ wo e, psy_w (-7.3) (x / 100) 0 = Ok wo → psy_v (-7.3) wo = Raise e →
           result r = Fail e 60 ∧ stdout (trace r) = [] ∧
           trace r ⊨ "wo" ↦ wo ∧ nums "minf" (trace r) = []).
Proof.
  intros r Hc. subst r. read_cases Hc.
  split; [intros e Hw | intros wo e Hw Hv]; run_script; done.
Qed.

End Outcomes.

(** ** Completion *)

Section Completion.

Variable psy_w : Q → Q → Q → res Q.
Variable psy_v : Q → Q → res Q.

(** X5: a run completes, printing its five lines, whenever the cell is a
    number, both psychrometric calls answer, and the specific volume is
    neither zero nor the critical volume −3030000/4997006 at which the
    sensible load vanishes. *)
Theorem completion_sufficient fs x wo vol :
  let r := calculate_thermal_load psy_w psy_v fs in
  humidity_cell fs = Ok (CNum x) →
  psy_w (-7.3) (x / 100) 0 = Ok wo →
  psy_v (-7.3) wo = Ok vol →
  ¬ vol == 0 →
  ¬ vol == critical_volume →
  result r = Done tt ∧ length (stdout (trace r)) = 5%nat.
Proof.
  intros r Hc Hw Hv Hz Hcrit. subst r. read_cases Hc.
  pose proof Hz as Hz'. apply Qeq_bool_false in Hz'.
  run_script; try done.
  apply divisor77_zero in E. rewrite (Qs_of_volume _ Hz) in E.
  apply (Qs_zero_iff _ Hz) in E. contradiction.
Qed.

(** X7: with the literals of the source the infiltration flow and the
    ventilation flow coincide: [Vinf] equals [Vd], so whenever [mp] is
    assigned it equals [minf]. *)
Theorem infiltration_equals_ventilation fs mp :
  let tr := trace (calculate_thermal_load psy_w psy_v fs) in
  tr ⊨ "mp" ↦ mp →
  ∃ Vinf Vd minf,
    tr ⊨ "Vinf" ↦ Vinf ∧ tr ⊨ "Vd" ↦ Vd ∧ tr ⊨ "minf" ↦ minf ∧
    Vinf == Vd ∧ minf == mp.
Proof.
  run_script; try discriminate; intros [= <-].
  all: eexists _, _, _; do 3 (split; [reflexivity|]).
  all: apply Qeq_bool_false in E4.
  all: split; [reflexivity | field; exact E4].
Qed.

(** X8: the sensible load depends on the surroundings only through the
    specific volume: when the cell is a number, both psychrometric calls
    answer and the volume [vol] is not zero, [Qs] is bound to
    [−499.7006 − 303/vol], whatever the humidity is. *)
Theorem sensible_load_of_volume fs x wo vol :
  let tr := trace (calculate_thermal_load psy_w psy_v fs) in
  humidity_cell fs = Ok (CNum x) →
  psy_w (-7.3) (x / 100) 0 = Ok wo →
  psy_v (-7.3) wo = Ok vol →
  ¬ vol == 0 →
  ∃ Qs, tr ⊨ "Qs" ↦ Qs ∧ Qs == -499.7006 - 303 / vol.
Proof.
  intros tr Hc Hw Hv Hz. subst tr. read_cases Hc.
  pose proof Hz as Hz'. apply Qeq_bool_false in Hz'.
  run_script.
  all: eexists; split; [reflexivity | now apply Qs_of_volume].
Qed.

(** X9: the names a run assigns to are always an initial part of one fixed
    sequence: statements are never skipped or reordered, a failure only cuts
    the sequence short. *)
Theorem assignment_order fs :
  writes (trace (calculate_thermal_load psy_w psy_v fs))
  `prefix_of` (names_to_line77 ++ ["m"])%list.
Proof.
  run_script; eexists; reflexivity.
Qed.

End Completion.

(** ** What a run depends on *)

Section Dependence.

Variable psy_w : Q → Q → Q → res Q.
Variable psy_v : Q → Q → res Q.



End Dependence.

(** X11: the script consults [psychro] only at the outdoor temperature −7.3
    and altitude 0: two pairs of psychrometric functions that agree there
    give the same run, event for event. *)
Theorem psychro_only_at_outdoor_point
    (w1 w2 : Q → Q → Q → res Q) (v1 v2 : Q → Q → res Q) fs :
  (∀ ϕ, w2 (-7.3) ϕ 0 = w1 (-7.3) ϕ 0) →
  (∀ wo, v2 (-7.3) wo = v1 (-7.3) wo) →
  calculate_thermal_load w2 v2 fs = calculate_thermal_load w1 v1 fs.
Proof.
  intros Hw Hv. unfold calculate_thermal_load, thermal_load.
  unfold read_excel, at_, cell_div.
  repeat (plumbing; rewrite ?Hw, ?Hv; exec_step).
  all: reflexivity.
Qed.


Lemma psychro_errors_propagate_witness :
  let r1 := calculate_thermal_load (raising_w ValueError) (const_v 0.75)
              (disk (CNum 40)) in
  let r2 := calculate_thermal_load (const_w 0.002) (raising_v ValueError)
              (disk (CNum 40)) in
  (result r1 = Fail ValueError 46 ∧ stdout (trace r1) = [] ∧
   nums "wo" (trace r1) = []) ∧
  (result r2 = Fail ValueError 60 ∧ stdout (trace r2) = [] ∧
   trace r2 ⊨ "wo" ↦ 0.002 ∧ nums "minf" (trace r2) = []).
Proof.
  split.
  - apply (proj1 (psychro_errors_propagate (raising_w ValueError) (const_v 0.75)
                    (disk (CNum 40)) 40 eq_refl)).
    reflexivity.
  - apply (proj2 (psychro_errors_propagate (const_w 0.002) (raising_v ValueError)
                    (disk (CNum 40)) 40 eq_refl)); reflexivity.
Defined.

Lemma completion_sufficient_witness :
  result demo = Done tt ∧ length (stdout (trace demo)) = 5%nat.
Proof.
  apply (completion_sufficient (const_w 0.002) (const_v 0.75) (disk (CNum 40))
           40 0.002 0.75); solve [reflexivity | discriminate].
Defined.

Lemma infiltration_equals_ventilation_witness :
  let tr := trace demo in
  ∃ mp, tr ⊨ "mp" ↦ mp ∧
  ∃ Vinf Vd minf,
    tr ⊨ "Vinf" ↦ Vinf ∧ tr ⊨ "Vd" ↦ Vd ∧ tr ⊨ "minf" ↦ minf ∧
    Vinf == Vd ∧ minf == mp.
Proof.
  eexists. split; [vm_compute; reflexivity|].
  apply (infiltration_equals_ventilation (const_w 0.002) (const_v 0.75)
           (disk (CNum 40))).
  vm_compute. reflexivity.
Defined.

Lemma sensible_load_of_volume_witness :
  ∃ Qs, trace demo ⊨ "Qs" ↦ Qs ∧ Qs == -499.7006 - 303 / 0.75.
Proof.
  apply (sensible_load_of_volume (const_w 0.002) (const_v 0.75)
           (disk (CNum 40)) 40 0.002 0.75);
    solve [reflexivity | discriminate].
Defined.


Lemma psychro_only_at_outdoor_point_witness :
  calculate_thermal_load (outdoor_only_w 0.002) (outdoor_only_v 0.75)
    (disk (CNum 40))
  = demo.
Proof.
  apply (psychro_only_at_outdoor_point (const_w 0.002) (outdoor_only_w 0.002)
           (const_v 0.75) (outdoor_only_v 0.75) (disk (CNum 40)));
    reflexivity.
Defined.
